(** * Bottom effect correction coefficients

    A shallow embedding of [src/pyfmrheo/models/correction_factors.py] and the
    properties of its six correction-factor providers.

    Numbers.  Every scalar of the module (sample height, tip parameter, the
    elements of the indentation sequence, the coefficients) is an IEEE 754
    binary64 value, as a Python [float] and a numpy [float64] are; the model
    uses Rocq's primitive [float], whose [+], [*], [/] and [sqrt] are the
    correctly rounded binary64 operations.  numpy's default error state only
    warns on an invalid operation, a division by zero or an overflow and
    returns [nan] or an infinity: no arithmetic operation on two numbers
    raises here.  (Python's own [float] differs in two corners, where both
    operands are Python floats: a power that overflows and a division by
    0.0 raise, and the sample then gets 1.0 from the [except] branch.  The
    model follows numpy, in which the code computes on the arrays of the
    fitting pipeline and whenever [np.sqrt] or [np.tan] made an operand.)

    Exceptions.  What does raise inside a provider is kept in an error monad:
    the geometry gate ([Exception] with its message), arithmetic on an element
    that is not a number ([TypeError]) and indexing a term table out of range
    ([IndexError]). *)

From Stdlib Require Import Floats ZArith List String Bool Lia.
Import ListNotations.

Set Warnings "-inexact-float".

(** ** The Python side: exceptions, results, objects *)

Module Py.

(** The exceptions the module can meet; all are subclasses of Python's
    [Exception], so [except Exception] catches each of them. *)
Inductive exn : Type :=
| Exception (msg : string)
| TypeError
| IndexError.

Inductive result (A : Type) : Type :=
| Ok (a : A)
| Raise (e : exn).

Arguments Ok {A} a.
Arguments Raise {A} e.

Definition bind {A B : Type} (c : result A) (k : A -> result B) : result B :=
  match c with
  | Ok a => k a
  | Raise e => Raise e
  end.

(** An element of the indentation sequence, or the first argument of
    [sphere_approx_kontomaris]: a number, or something that is not one
    (a malformed element, [None]). *)
Inductive object : Type :=
| PyFloat (x : float)
| PyNone.

(** The operand of an arithmetic operation: [None * R], [np.sqrt(None)],
    [None ** 2] and the like raise [TypeError]. *)
Definition as_float (o : object) : result float :=
  match o with
  | PyFloat x => Ok x
  | PyNone => Raise TypeError
  end.

(** [table[j]] on a list, for [j >= 0]. *)
Definition getitem {A : Type} (table : list A) (j : nat) : result A :=
  match nth_error table j with
  | Some a => Ok a
  | None => Raise IndexError
  end.

(** [d.get(key, None)] on a dict with string keys, kept as the list of its
    items. *)
Fixpoint dict_get {A : Type} (d : list (string * A)) (key : string) : option A :=
  match d with
  | [] => None
  | (k, v) :: rest => if String.eqb k key then Some v else dict_get rest key
  end.

(** [for j in range(n): acc = step(acc, j)], stopping at the first raise. *)
Fixpoint for_range {A : Type} (js : list nat) (step : A -> nat -> result A)
         (acc : A) : result A :=
  match js with
  | [] => Ok acc
  | j :: rest => bind (step acc j) (for_range rest step)
  end.

(** [range(n)] for a Python integer: empty when [n <= 0]. *)
Definition range (n : Z) : list nat := seq 0 (Z.to_nat n).

End Py.

Import Py.

Declare Scope py_scope.
Delimit Scope py_scope with py.
Notation "x <- c ;; k" := (bind c (fun x => k))
  (at level 61, c at next level, right associativity) : py_scope.

(** ** Numbers *)

Local Open Scope float_scope.

(** [x ** n] for the literal exponents of the module (2 to 5).  Python and
    numpy call C's [pow]; the model multiplies, which agrees with [pow] on
    zeros, infinities, [nan] and whenever the power is representable, and
    is within an ulp or two of it otherwise. *)
Fixpoint pow (x : float) (n : nat) : float :=
  match n with
  | O => 1
  | S m => pow x m * x
  end.

Infix "**" := pow (at level 30, right associativity) : float_scope.

(** [np.pi] *)
Definition pi : float := 3.141592653589793.

(** numpy's [tan] is the platform's libm function, which IEEE 754 does not
    pin down: the cone models take it as an interface. *)
Class NumPy : Type := { np_tan : float -> float }.

(** A truncated Maclaurin series, to run the cone models on concrete
    inputs; every theorem below holds for any instance. *)
Definition tan_series (x : float) : float :=
  x + x ** 3 / 3 + 2 * x ** 5 / 15.

Definition numpy_series : NumPy := {| np_tan := tan_series |}.

(** ** The sample loop shared by the providers

<<
    coefficients_out = []
    for i in range(len(indentation)):
        try:
            ...
            coefficients_out.append(coeff)
        except Exception as _:
            traceback.print_exc()
            coefficients_out.append(1.0)
    return coefficients_out
>>
    [body] is the part of the [try] block that computes [coeff] from
    [indentation[i]]. *)

Definition try_except (body : result float) : float :=
  match body with
  | Ok coeff => coeff
  | Raise _ => 1
  end.

Definition sample_loop (body : object -> result float)
           (indentation : list object) : list float :=
  fold_left
    (fun coefficients_out d => (coefficients_out ++ [try_except (body d)])%list)
    indentation [].

Local Open Scope py_scope.

(** ** Dimitriadis et al. 2002, paraboloid *)

(** Equation (12) *)
Definition dimitriadis_bonded_coeff (h R : float) (d : object) : result float :=
  if 0 <? h then
    d <- as_float d ;;
    let X := sqrt (d * R) / h in
    let o2 := 1.133 * X + 1.283 * X ** 2 in
    let o4 := 0.769 * X ** 3 + 0.0975 * X ** 4 in
    Ok (1 + o2 + o4)
  else Ok 1.

Definition bec_dimitriadis_paraboloid_bonded (h : float)
           (indentation : list object) (ind_shape : string) (R : float)
  : result (list float) :=
  if negb (String.eqb ind_shape "paraboloid") then
    Raise (Exception ("The Dimitriadis paraboloid bonded BEC model is not suitable for the "
                        ++ ind_shape ++ " geometry.")%string)
  else Ok (sample_loop (dimitriadis_bonded_coeff h R) indentation).

(** Equation (11) *)
Definition dimitriadis_not_bonded_coeff (h R : float) (d : object) : result float :=
  if 0 <? h then
    d <- as_float d ;;
    let X := sqrt (d * R) / h in
    let o2 := 0.884 * X + 0.781 * X ** 2 in
    let o4 := 0.386 * X ** 3 + 0.0048 * X ** 4 in
    Ok (1 + o2 + o4)
  else Ok 1.

Definition bec_dimitriadis_paraboloid_not_bonded (h : float)
           (indentation : list object) (ind_shape : string) (R : float)
  : result (list float) :=
  if negb (String.eqb ind_shape "paraboloid") then
    Raise (Exception ("The Dimitriadis paraboloid not bonded BEC model is not suitable for the "
                        ++ ind_shape ++ " geometry.")%string)
  else Ok (sample_loop (dimitriadis_not_bonded_coeff h R) indentation).

Section ConeModels.

Context {numpy : NumPy}.

(** ** Gavara et al. 2012, cone *)

Definition gavara_coeff (h half_opening_angle : float) (d : object)
  : result float :=
  if 0 <? h then
    d <- as_float d ;;
    let X := d / h in
    let tan_angle := np_tan half_opening_angle in
    let o1 := 1.7795 * (2 * tan_angle / pi ** 2) * X in
    let o2 := 16.0 * 1.7795 ** 2 * tan_angle ** 2 * X ** 2 in
    Ok (1 + o1 + o2)
  else Ok 1.

Definition bec_gavara_cone (h : float) (indentation : list object)
           (ind_shape : string) (half_opening_angle : float)
  : result (list float) :=
  if negb (String.eqb ind_shape "cone") then
    Raise (Exception ("The Gavara cone BEC model is not suitable for the "
                        ++ ind_shape ++ " geometry.")%string)
  else Ok (sample_loop (gavara_coeff h half_opening_angle) indentation).

(** ** Managuli et al. 2018, cone: equation (1) *)

Definition managuli_coeff (h half_opening_angle : float) (d : object)
  : result float :=
  if 0 <? h then
    let C := (1.7795 * np_tan half_opening_angle) / pi ** 2 in
    d <- as_float d ;;
    let o1 := 4 * C * d / h in
    let o2 := 20 * C ** 2 * d ** 2 / h ** 2 in
    Ok (1 + o1 + o2)
  else Ok 1.

Definition bec_managuli_cone (h : float) (indentation : list object)
           (ind_shape : string) (half_opening_angle : float)
  : result (list float) :=
  if negb (String.eqb ind_shape "cone") then
    Raise (Exception ("The Managuli cone BEC model is not suitable for the "
                        ++ ind_shape ++ " geometry.")%string)
  else Ok (sample_loop (managuli_coeff h half_opening_angle) indentation).

(** ** Garcia et al. 2018 *)

(** A term of the series: [lambda h, indentation, tip_parameter: ...]. *)
Definition garcia_term : Type := float -> object -> float -> result float.

Definition paraboloid_model_factors : list garcia_term :=
  [ fun h indentation R =>
      d <- as_float indentation ;; Ok ((1.133 * sqrt (d * R)) / h)
  ; fun h indentation R =>
      d <- as_float indentation ;; Ok ((1.497 * d * R) / h ** 2)
  ; fun h indentation R =>
      d <- as_float indentation ;;
      Ok ((1.469 * d * R * sqrt (d * R)) / h ** 3)
  ; fun h indentation R =>
      d <- as_float indentation ;;
      Ok ((0.755 * d ** 2 * R ** 2) / h ** 4) ].

Definition conical_model_factors : list garcia_term :=
  [ fun h indentation half_opening_angle =>
      d <- as_float indentation ;;
      Ok ((0.721 * d * np_tan half_opening_angle) / h)
  ; fun h indentation half_opening_angle =>
      d <- as_float indentation ;;
      Ok ((0.650 * d ** 2 * np_tan half_opening_angle ** 2) / h ** 2)
  ; fun h indentation half_opening_angle =>
      d <- as_float indentation ;;
      Ok ((0.491 * d ** 3 * np_tan half_opening_angle ** 3) / h ** 3)
  ; fun h indentation half_opening_angle =>
      d <- as_float indentation ;;
      Ok ((0.225 * d ** 4 * np_tan half_opening_angle ** 4) / h ** 4) ].

(** The flat punch terms do not look at the indentation. *)
Definition flat_punch_model_factors : list garcia_term :=
  [ fun h _ R => Ok ((1.133 * R) / h)
  ; fun h _ R => Ok ((1.283 * R ** 2) / h ** 2)
  ; fun h _ R => Ok ((0.598 * R ** 3) / h ** 3)
  ; fun h _ R => Ok (- (0.291 * R ** 4) / h ** 4) ].

Definition garcia_garcia_factors : list (string * list garcia_term) :=
  [ ("paraboloid"%string, paraboloid_model_factors)
  ; ("conical"%string, conical_model_factors)
  ; ("flat_punch"%string, flat_punch_model_factors) ].

(** The [try] block of [bec_garcia_garcia]:
<<
    coeff = 1.0
    if h > 0:
        for j in range(order):
            O = model_factors[j]
            coeff += O(h, indentation[i], tip_parameter)
>> *)
Definition garcia_coeff (model_factors : list garcia_term)
           (h tip_parameter : float) (order : Z) (d : object) : result float :=
  if 0 <? h then
    for_range (range order)
      (fun coeff j =>
         O <- getitem model_factors j ;;
         term <- O h d tip_parameter ;;
         Ok (coeff + term))
      1
  else Ok 1.

(** [if not model_factors] holds for [None] and for an empty list. *)
Definition bec_garcia_garcia (h : float) (indentation : list object)
           (ind_shape : string) (tip_parameter : float) (order : Z)
  : result (list float) :=
  match dict_get garcia_garcia_factors ind_shape with
  | Some ((_ :: _) as model_factors) =>
      Ok (sample_loop (garcia_coeff model_factors h tip_parameter order)
                      indentation)
  | Some [] | None =>
      Raise (Exception ("The Garcia, Garcia BEC model is not suitable for the "
                          ++ ind_shape ++ " geometry.")%string)
  end.

End ConeModels.

(** The default of [bec_garcia_garcia]'s [order]. *)
Definition garcia_default_order : Z := 4.

(** ** Kontomaris 2021: approximation to a spherical indenter, equation 17 *)

(** A term of the series: [lambda indentation, R: ...]. *)
Definition kontomaris_term : Type := object -> float -> result float.

(** The first term does not look at the indentation. *)
Definition kontomaris_model_factors : list kontomaris_term :=
  [ fun _ R => Ok (2 / 3 * 1.0100000 / sqrt R)
  ; fun indentation R =>
      d <- as_float indentation ;; Ok (1 / 2 * -0.0730300 * sqrt d / R)
  ; fun indentation R =>
      d <- as_float indentation ;;
      Ok (1 / 3 * -0.1357000 * d * sqrt d / R ** 2)
  ; fun indentation R =>
      d <- as_float indentation ;;
      Ok (1 / 4 * 0.0359800 * d ** 2 * sqrt d / R ** 3)
  ; fun indentation R =>
      d <- as_float indentation ;;
      Ok (1 / 5 * -0.0040240 * d ** 3 * sqrt d / R ** 4)
  ; fun indentation R =>
      d <- as_float indentation ;;
      Ok (1 / 6 * 0.0001653 * d ** 4 * sqrt d / R ** 5) ].

(** The [try] block of [sphere_approx_kontomaris]:
<<
      coeff = 0.0
      for j in range(order):
          O = model_factors[j]
          coeff += 3/2 * np.sqrt(R) * O(indentation[i], R)
>> *)
Definition kontomaris_coeff (model_factors : list kontomaris_term)
           (R : float) (order : Z) (d : object) : result float :=
  for_range (range order)
    (fun coeff j =>
       O <- getitem model_factors j ;;
       term <- O d R ;;
       Ok (coeff + 3 / 2 * sqrt R * term))
    0.

(** The first argument ([_] in the source) is never read. *)
Definition sphere_approx_kontomaris (_ : object) (indentation : list object)
           (ind_shape : string) (R : float) (order : Z) : result (list float) :=
  let model_factors := kontomaris_model_factors in
  if negb (String.eqb ind_shape "paraboloid") then
    Raise (Exception
             "The Kontomaris approximation is only suitable for the paraboloid geometry.")
  else Ok (sample_loop (kontomaris_coeff model_factors R order) indentation).

(** The default of [sphere_approx_kontomaris]'s [order]. *)
Definition kontomaris_default_order : Z := 6.

(** ** The six providers, named

    The claims speak of "every provider": [call] dispatches to the six
    functions above with one argument list ([order] is read by the last two
    only, the height is the unread first argument of
    [sphere_approx_kontomaris]), [try_body] is the [try] block each of them
    runs on one sample (for [bec_garcia_garcia], on the table of the
    geometry; the gate has stopped the call when there is none), and
    [supported] lists the geometry tags that pass each gate. *)

Inductive provider : Type :=
| Dimitriadis_bonded
| Dimitriadis_not_bonded
| Gavara_cone
| Managuli_cone
| Garcia_garcia
| Kontomaris.

Definition call {numpy : NumPy} (p : provider) (h : float)
           (indentation : list object) (ind_shape : string)
           (tip_parameter : float) (order : Z) : result (list float) :=
  match p with
  | Dimitriadis_bonded =>
      bec_dimitriadis_paraboloid_bonded h indentation ind_shape tip_parameter
  | Dimitriadis_not_bonded =>
      bec_dimitriadis_paraboloid_not_bonded h indentation ind_shape tip_parameter
  | Gavara_cone => bec_gavara_cone h indentation ind_shape tip_parameter
  | Managuli_cone => bec_managuli_cone h indentation ind_shape tip_parameter
  | Garcia_garcia =>
      bec_garcia_garcia h indentation ind_shape tip_parameter order
  | Kontomaris =>
      sphere_approx_kontomaris (PyFloat h) indentation ind_shape tip_parameter order
  end.

Definition try_body {numpy : NumPy} (p : provider) (h : float)
           (ind_shape : string) (tip_parameter : float) (order : Z)
           (d : object) : result float :=
  match p with
  | Dimitriadis_bonded => dimitriadis_bonded_coeff h tip_parameter d
  | Dimitriadis_not_bonded => dimitriadis_not_bonded_coeff h tip_parameter d
  | Gavara_cone => gavara_coeff h tip_parameter d
  | Managuli_cone => managuli_coeff h tip_parameter d
  | Garcia_garcia =>
      match dict_get garcia_garcia_factors ind_shape with
      | Some model_factors => garcia_coeff model_factors h tip_parameter order d
      | None => garcia_coeff [] h tip_parameter order d
      end
  | Kontomaris => kontomaris_coeff kontomaris_model_factors tip_parameter order d
  end.

Definition supported (p : provider) : list string :=
  match p with
  | Dimitriadis_bonded | Dimitriadis_not_bonded | Kontomaris =>
      ["paraboloid"%string]
  | Gavara_cone | Managuli_cone => ["cone"%string]
  | Garcia_garcia => ["paraboloid"; "conical"; "flat_punch"]%string
  end.

Definition supports (p : provider) (ind_shape : string) : bool :=
  existsb (String.eqb ind_shape) (supported p).

(** [starts_with s msg]: the message [msg] begins with the text [s]. *)
Fixpoint starts_with (s msg : string) : bool :=
  match s, msg with
  | EmptyString, _ => true
  | String _ _, EmptyString => false
  | String a s', String b msg' => Ascii.eqb a b && starts_with s' msg'
  end.

(** [contains s msg]: the text [s] occurs in the message [msg]. *)
Fixpoint contains (s msg : string) : bool :=
  starts_with s msg
  || match msg with
     | EmptyString => false
     | String _ rest => contains s rest
     end.

(** A binary64 number that is neither [nan] nor an infinity, read off its
    IEEE representation. *)
Definition finite (x : float) : bool :=
  match Prim2SF x with
  | S754_zero _ | S754_finite _ _ _ => true
  | S754_infinity _ | S754_nan => false
  end.

(** Either zero of binary64, [+0] or [-0] ([-0.0 == 0] in Python). *)
Definition zero (x : float) : Prop := exists s, Prim2SF x = S754_zero s.

(** The factors that multiply the powers of the indentation in the
    Dimitriadis, Gavara and Managuli series; [h ** 2] is what the Managuli
    series divides its second term by. *)
Definition series_factors {numpy : NumPy} (p : provider)
           (tip_parameter : float) : list float :=
  match p with
  | Dimitriadis_bonded | Dimitriadis_not_bonded => [tip_parameter]
  | Gavara_cone =>
      let tan_angle := np_tan tip_parameter in
      [1.7795 * (2 * tan_angle / pi ** 2); 16.0 * 1.7795 ** 2 * tan_angle ** 2]
  | Managuli_cone =>
      let C := (1.7795 * np_tan tip_parameter) / pi ** 2 in
      [4 * C; 20 * C ** 2]
  | Garcia_garcia | Kontomaris => []
  end.

Definition series_regular {numpy : NumPy} (p : provider)
           (h tip_parameter : float) : bool :=
  forallb finite (series_factors p tip_parameter)
  && match p with
     | Managuli_cone => 0 <? h ** 2
     | _ => true
     end.

(** * Properties *)

(** ** The sample loop *)

Lemma sample_loop_from (body : object -> result float) indentation acc :
  fold_left
    (fun coefficients_out d => (coefficients_out ++ [try_except (body d)])%list)
    indentation acc
  = (acc ++ map (fun d => try_except (body d)) indentation)%list.
Proof.
  revert acc.
  induction indentation as [|d rest IH]; intros acc; simpl.
  - now rewrite app_nil_r.
  - rewrite IH, <- app_assoc. reflexivity.
Qed.

Lemma sample_loop_map body indentation :
  sample_loop body indentation = map (fun d => try_except (body d)) indentation.
Proof. unfold sample_loop. now rewrite sample_loop_from. Qed.

Lemma sample_loop_length body indentation :
  List.length (sample_loop body indentation) = List.length indentation.
Proof. rewrite sample_loop_map. apply List.length_map. Qed.

Lemma sample_loop_split body pre d post :
  sample_loop body (pre ++ d :: post)
  = (sample_loop body pre ++ try_except (body d) :: sample_loop body post)%list.
Proof. rewrite !sample_loop_map, map_app. reflexivity. Qed.

Lemma sample_loop_nth body indentation i d :
  nth_error indentation i = Some d ->
  nth_error (sample_loop body indentation) i = Some (try_except (body d)).
Proof.
  intros Hd. rewrite sample_loop_map.
  exact (map_nth_error (fun d => try_except (body d)) i indentation Hd).
Qed.

Lemma sample_loop_const body indentation c :
  (forall d, try_except (body d) = c) ->
  sample_loop body indentation = repeat c (List.length indentation).
Proof.
  intros Hc. rewrite sample_loop_map.
  induction indentation as [|d rest IH]; simpl; [reflexivity|].
  now rewrite Hc, IH.
Qed.

(** ** The geometry gates *)

Local Arguments String.eqb : simpl never.

Ltac shape_cases H :=
  unfold supports in H; simpl in H;
  repeat rewrite orb_false_r in H;
  repeat match type of H with
    | (_ || _)%bool = true => apply orb_true_iff in H; destruct H as [H | H]
    | (_ || _)%bool = false => apply orb_false_iff in H; destruct H as [? H]
    end;
  repeat match goal with
    | E : String.eqb _ _ = true |- _ => apply String.eqb_eq in E; subst
    end.

Lemma call_supported {numpy : NumPy} p h indentation ind_shape tip order :
  supports p ind_shape = true ->
  call p h indentation ind_shape tip order
  = Ok (sample_loop (try_body p h ind_shape tip order) indentation).
Proof.
  intros Hs. destruct p; shape_cases Hs; reflexivity.
Qed.

Lemma starts_with_append s post : starts_with s (s ++ post) = true.
Proof.
  induction s as [|a s IH]; simpl; [reflexivity|].
  now rewrite Ascii.eqb_refl, IH.
Qed.

Lemma contains_starts_with s msg :
  starts_with s msg = true -> contains s msg = true.
Proof. intros H. destruct msg; simpl; rewrite H; reflexivity. Qed.

Lemma contains_append pre s post : contains s (pre ++ s ++ post) = true.
Proof.
  induction pre as [|a pre IH].
  - cbn [append]. apply contains_starts_with, starts_with_append.
  - cbn [append contains]. rewrite IH. apply orb_true_r.
Qed.

Lemma garcia_table_unsupported {numpy : NumPy} ind_shape :
  supports Garcia_garcia ind_shape = false ->
  dict_get garcia_garcia_factors ind_shape = None.
Proof.
  intros Hs. shape_cases Hs.
  unfold garcia_garcia_factors. cbn [dict_get].
  rewrite (String.eqb_sym "paraboloid" ind_shape), H.
  rewrite (String.eqb_sym "conical" ind_shape), H0.
  rewrite (String.eqb_sym "flat_punch" ind_shape), Hs.
  reflexivity.
Qed.


(** ** Binary64 facts, from the specification of the primitive operations *)

Lemma zero_finite x : zero x -> finite x = true.
Proof. intros [s Hs]. unfold finite. now rewrite Hs. Qed.

Lemma eqb_zero x : (x =? 0) = true -> zero x.
Proof.
  rewrite FloatAxioms.eqb_spec. change (Prim2SF 0) with (S754_zero false).
  unfold zero. destruct (Prim2SF x) as [s| s| |s m e]; try discriminate.
  - eauto.
  - destruct s; discriminate.
  - destruct s; discriminate.
Qed.

Lemma ltb_0_cases h :
  (0 <? h) = true ->
  Prim2SF h = S754_infinity false
  \/ exists m e, Prim2SF h = S754_finite false m e.
Proof.
  rewrite FloatAxioms.ltb_spec. change (Prim2SF 0) with (S754_zero false).
  destruct (Prim2SF h) as [s| s| |s m e]; try discriminate.
  - destruct s; [discriminate | auto].
  - destruct s; [discriminate | eauto].
Qed.

Lemma leb_0_not_ltb h : (h <=? 0) = true -> (0 <? h) = false.
Proof.
  rewrite FloatAxioms.leb_spec, FloatAxioms.ltb_spec.
  change (Prim2SF 0) with (S754_zero false).
  destruct (Prim2SF h) as [s| s| |s m e];
    try reflexivity; destruct s; reflexivity || discriminate.
Qed.

Lemma mul_zero_l x y : zero x -> finite y = true -> zero (x * y).
Proof.
  intros [s Hs]. unfold finite, zero. rewrite mul_spec, Hs.
  destruct (Prim2SF y); try discriminate; intros _; simpl; eauto.
Qed.

Lemma mul_zero_r x y : finite x = true -> zero y -> zero (x * y).
Proof.
  intros Hx [s Hs]. revert Hx. unfold finite, zero. rewrite mul_spec, Hs.
  destruct (Prim2SF x); try discriminate; intros _; simpl; eauto.
Qed.

Lemma sqrt_zero x : zero x -> zero (sqrt x).
Proof. intros [s Hs]. exists s. now rewrite sqrt_spec, Hs. Qed.

Lemma div_zero_pos x y : zero x -> (0 <? y) = true -> zero (x / y).
Proof.
  intros [s Hs] Hy. unfold zero. rewrite div_spec, Hs.
  destruct (ltb_0_cases y Hy) as [-> | (m & e & ->)]; simpl; eauto.
Qed.

Lemma add_zero x y : zero x -> zero y -> zero (x + y).
Proof.
  intros [s Hs] [t Ht]. unfold zero. rewrite add_spec, Hs, Ht.
  destruct s, t; simpl; eauto.
Qed.

Lemma add_1_zero y : zero y -> 1 + y = 1.
Proof.
  intros [s Hs]. apply Prim2SF_inj. rewrite add_spec, Hs. reflexivity.
Qed.

Lemma pow_zero x n : zero x -> zero (x ** S n).
Proof.
  intros Hx. induction n as [|n IH].
  - simpl. apply mul_zero_r; [reflexivity | assumption].
  - change (x ** S (S n)) with (x ** S n * x).
    apply mul_zero_l; [assumption | now apply zero_finite].
Qed.

(** Every term of a series in a zero variable is a zero. *)
Ltac zeros :=
  repeat first
    [ assumption
    | apply add_zero
    | apply sqrt_zero
    | apply pow_zero
    | apply div_zero_pos; [ | assumption ]
    | apply mul_zero_r; [ first [ assumption | reflexivity ] | ]
    | apply mul_zero_l; [ | assumption ] ].

(** ** The inner loop over the terms *)

Lemma for_range_raises {A : Type} js (step : A -> nat -> result A) acc j :
  In j js ->
  (forall a, exists e, step a j = Raise e) ->
  exists e, for_range js step acc = Raise e.
Proof.
  intros Hj Hstep. revert acc.
  induction js as [|k rest IH]; intros acc; [contradiction|].
  cbn [for_range].
  destruct Hj as [-> | Hj].
  - destruct (Hstep acc) as [e ->]. now exists e.
  - destruct (step acc k) as [a|e]; cbn [bind]; [now apply IH | now exists e].
Qed.

Lemma range_beyond order (n : nat) :
  (Z.of_nat n < order)%Z -> In n (range order).
Proof. intros H. unfold range. apply in_seq. lia. Qed.

Lemma range_0 : range 0 = [].
Proof. reflexivity. Qed.

(** ** The [try] block of each provider *)

Section TryBlocks.

Context {numpy : NumPy}.

Lemma garcia_table_supported ind_shape :
  supports Garcia_garcia ind_shape = true ->
  exists model_factors,
    dict_get garcia_garcia_factors ind_shape = Some model_factors
    /\ List.length model_factors = 4%nat.
Proof.
  intros Hs. shape_cases Hs; eexists; (split; [reflexivity | reflexivity]).
Qed.

Lemma getitem_beyond {A : Type} (table : list A) j :
  (List.length table <= j)%nat -> getitem table j = Raise IndexError.
Proof.
  intros H. unfold getitem.
  now rewrite (proj2 (nth_error_None table j) H).
Qed.

(** Without a positive height no provider but Kontomaris' reads the sample. *)
Lemma try_body_no_height p h ind_shape tip order d :
  p <> Kontomaris ->
  supports p ind_shape = true ->
  (0 <? h) = false ->
  try_body p h ind_shape tip order d = Ok 1.
Proof.
  intros Hp Hs Hh.
  destruct p; try congruence; cbn [try_body];
    unfold dimitriadis_bonded_coeff, dimitriadis_not_bonded_coeff,
      gavara_coeff, managuli_coeff; try (rewrite Hh; reflexivity).
  destruct (garcia_table_supported _ Hs) as (t & -> & _).
  unfold garcia_coeff. now rewrite Hh.
Qed.

(** An order beyond the table ends every sample's [try] block in a raise. *)
Lemma garcia_coeff_beyond model_factors h tip order d :
  (Z.of_nat (List.length model_factors) < order)%Z ->
  try_except (garcia_coeff model_factors h tip order d) = 1.
Proof.
  intros Ho. unfold garcia_coeff.
  destruct (0 <? h); [|reflexivity].
  destruct (for_range_raises (range order)
              (fun coeff j =>
                 O <- getitem model_factors j ;;
                 term <- O h d tip ;; Ok (coeff + term))
              1 (List.length model_factors)) as [e ->].
  - now apply range_beyond.
  - intros a. exists IndexError. now rewrite getitem_beyond.
  - reflexivity.
Qed.

Lemma garcia_coeff_order_0 model_factors h tip d :
  garcia_coeff model_factors h tip 0 d = Ok 1.
Proof. unfold garcia_coeff. rewrite range_0. now destruct (0 <? h). Qed.

Lemma kontomaris_coeff_order_0 model_factors R d :
  kontomaris_coeff model_factors R 0 d = Ok 0.
Proof. reflexivity. Qed.

(** The series at a zero indentation. *)
Lemma try_body_zero p h ind_shape tip order d :
  p <> Garcia_garcia -> p <> Kontomaris ->
  (0 <? h) = true ->
  series_regular p h tip = true ->
  zero d ->
  try_body p h ind_shape tip order (PyFloat d) = Ok 1.
Proof.
  intros Hg Hk Hh Hreg Hd.
  unfold series_regular in Hreg. apply andb_true_iff in Hreg.
  destruct Hreg as [Hfin Hdiv].
  destruct p; try congruence; cbn [try_body];
    unfold dimitriadis_bonded_coeff, dimitriadis_not_bonded_coeff,
      gavara_coeff, managuli_coeff;
    rewrite Hh; cbn [as_float bind]; cbv zeta;
    cbn [series_factors forallb] in Hfin;
    repeat match type of Hfin with
      | (_ && _)%bool = true =>
          let H1 := fresh "Hfin" in
          apply andb_true_iff in Hfin; destruct Hfin as [H1 Hfin]
      end;
    f_equal.
  - assert (HX : zero (sqrt (d * tip) / h)) by zeros.
    rewrite !add_1_zero; [reflexivity | zeros | zeros].
  - assert (HX : zero (sqrt (d * tip) / h)) by zeros.
    rewrite !add_1_zero; [reflexivity | zeros | zeros].
  - assert (HX : zero (d / h)) by zeros.
    rewrite !add_1_zero; [reflexivity | zeros | zeros].
  - rewrite !add_1_zero; [reflexivity | zeros | zeros].
Qed.

End TryBlocks.

(** * The claims *)

(** C1. Length invariant: for each of the six providers and every input
    that passes its geometry gate, the call returns a coefficient sequence
    exactly as long as the indentation sequence, whatever the samples are
    (numbers or not) and whatever happens while a sample is computed. *)
Theorem length_invariant {numpy : NumPy} (p : provider) (h : float)
        (indentation : list object) (ind_shape : string) (tip : float)
        (order : Z) :
  supports p ind_shape = true ->
  exists coefficients_out,
    call p h indentation ind_shape tip order = Ok coefficients_out
    /\ List.length coefficients_out = List.length indentation.
Proof.
  intros Hs. rewrite (call_supported _ _ _ _ _ _ Hs).
  eexists. split; [reflexivity | apply sample_loop_length].
Qed.

(** A conical Garcia call with a malformed sample and an order beyond the
    table. *)
Lemma length_invariant_witness :
  exists coefficients_out,
    call (numpy := numpy_series) Garcia_garcia 1
         [PyFloat 0.1; PyNone; PyFloat (-2)] "conical" 0.5 7
    = Ok coefficients_out
    /\ List.length coefficients_out = 3%nat.
Proof.
  exact (length_invariant (numpy := numpy_series) Garcia_garcia 1
           [PyFloat 0.1; PyNone; PyFloat (-2)] "conical" 0.5 7 eq_refl).
Defined.

(** C2, as the code has it.  A negative product under the square root is
    no failure for numpy: [np.sqrt] returns [nan], nothing is raised, and
    the sample's coefficient is [nan], not 1.0. *)
Lemma negative_sqrt_gives_nan :
  (-1 * 1 <? 0) = true
  /\ dimitriadis_bonded_coeff 1 1 (PyFloat (-1)) = Ok nan
  /\ bec_dimitriadis_paraboloid_bonded 1 [PyFloat (-1)] "paraboloid" 1
     = Ok [nan]
  /\ (nan =? 1) = false.
Proof. repeat split; vm_compute; reflexivity. Qed.

(** C2, amended.  For every provider, when the [try] block of one sample
    raises (an element that is not a number, an order beyond the term
    table), that sample's coefficient is 1.0, the call still returns, and
    the samples before and after it get the coefficients they get on their
    own. *)
Theorem failure_isolated {numpy : NumPy} (p : provider) (h : float)
        (ind_shape : string) (tip : float) (order : Z)
        (before : list object) (d : object) (after : list object) (e : exn) :
  supports p ind_shape = true ->
  try_body p h ind_shape tip order d = Raise e ->
  exists out_before out_after,
    call p h before ind_shape tip order = Ok out_before
    /\ call p h after ind_shape tip order = Ok out_after
    /\ call p h (before ++ d :: after) ind_shape tip order
       = Ok (out_before ++ 1 :: out_after)%list.
Proof.
  intros Hs He. rewrite !(call_supported _ _ _ _ _ _ Hs).
  do 2 eexists. split; [reflexivity | split; [reflexivity |]].
  now rewrite sample_loop_split, He.
Qed.

(** A sample that is not a number between two that are. *)
Lemma failure_isolated_witness :
  exists out_before out_after,
    call (numpy := numpy_series) Gavara_cone 1 [PyFloat 0.1] "cone" 0.5 4
    = Ok out_before
    /\ call (numpy := numpy_series) Gavara_cone 1 [PyFloat 0.2] "cone" 0.5 4
       = Ok out_after
    /\ call (numpy := numpy_series) Gavara_cone 1
            ([PyFloat 0.1] ++ PyNone :: [PyFloat 0.2]) "cone" 0.5 4
       = Ok (out_before ++ 1 :: out_after)%list.
Proof.
  exact (failure_isolated (numpy := numpy_series) Gavara_cone 1 "cone" 0.5 4
           [PyFloat 0.1] PyNone [PyFloat 0.2] TypeError eq_refl eq_refl).
Defined.

(** C3, as the code has it.  The error of [sphere_approx_kontomaris] does
    not name the geometry it was given. *)
Lemma kontomaris_gate_message :
  sphere_approx_kontomaris (PyFloat 1) [PyFloat 0.1] "cone" 5 6
  = Raise (Exception
      "The Kontomaris approximation is only suitable for the paraboloid geometry.")
  /\ contains "cone"
       "The Kontomaris approximation is only suitable for the paraboloid geometry."
     = false.
Proof. split; vm_compute; reflexivity. Qed.

(** C3, amended.  A provider called with a geometry tag it does not
    support raises an [Exception] whatever the indentation sequence is (no
    sample is looked at, no coefficient sequence is returned); the message
    names the offending tag for every provider but
    [sphere_approx_kontomaris], whose message is fixed. *)
Theorem geometry_gate {numpy : NumPy} (p : provider) (h : float)
        (ind_shape : string) (tip : float) (order : Z) :
  supports p ind_shape = false ->
  exists msg,
    (forall indentation,
        call p h indentation ind_shape tip order = Raise (Exception msg))
    /\ (p <> Kontomaris -> contains ind_shape msg = true)
    /\ (p = Kontomaris ->
        msg = "The Kontomaris approximation is only suitable for the paraboloid geometry."%string).
Proof.
  intros Hs.
  destruct p; cbn [call];
    unfold bec_dimitriadis_paraboloid_bonded, bec_dimitriadis_paraboloid_not_bonded,
      bec_gavara_cone, bec_managuli_cone, bec_garcia_garcia, sphere_approx_kontomaris;
    try rewrite (garcia_table_unsupported _ Hs);
    shape_cases Hs; try rewrite Hs; cbn [negb];
    eexists;
    (split; [intros; reflexivity | split; [intros Hp | intros E]]);
    try discriminate; try reflexivity; try congruence;
    apply contains_append.
Qed.

(** [bec_gavara_cone(h=1, indentations=[0.1], shape="paraboloid",
    half_angle=0.5)] fails. *)
Lemma geometry_gate_witness :
  exists msg,
    (forall indentation,
        bec_gavara_cone (numpy := numpy_series) 1 indentation "paraboloid" 0.5
        = Raise (Exception msg))
    /\ (Gavara_cone <> Kontomaris -> contains "paraboloid" msg = true)
    /\ (Gavara_cone = Kontomaris ->
        msg = "The Kontomaris approximation is only suitable for the paraboloid geometry."%string).
Proof.
  exact (geometry_gate (numpy := numpy_series) Gavara_cone 1 "paraboloid" 0.5 4
           eq_refl).
Defined.

(** C4, as the code has it.  An order of 5 on a four-term table raises
    nothing to the caller: the call goes through the sample loop and
    returns 1.0 for each sample. *)
Lemma garcia_order_5_returns :
  bec_garcia_garcia (numpy := numpy_series) 1 [PyFloat 0.1; PyFloat 0.2]
                    "paraboloid" 5 5
  = Ok [1; 1].
Proof. vm_compute. reflexivity. Qed.

(** C4, amended.  [bec_garcia_garcia] with a supported geometry and an
    order greater than 4 returns: the [IndexError] of the term table is
    caught in each sample's [try] block, and the result is the sequence of
    the input's length whose every coefficient is 1.0. *)
Theorem garcia_order_beyond_table {numpy : NumPy} (h : float)
        (indentation : list object) (ind_shape : string) (tip : float)
        (order : Z) :
  supports Garcia_garcia ind_shape = true ->
  (4 < order)%Z ->
  bec_garcia_garcia h indentation ind_shape tip order
  = Ok (repeat 1 (List.length indentation)).
Proof.
  intros Hs Ho.
  change (call Garcia_garcia h indentation ind_shape tip order
          = Ok (repeat 1 (List.length indentation))).
  rewrite (call_supported _ _ _ _ _ _ Hs). f_equal.
  apply sample_loop_const. intros d. cbn [try_body].
  destruct (garcia_table_supported _ Hs) as (t & -> & Hlen).
  apply garcia_coeff_beyond. rewrite Hlen. exact Ho.
Qed.

(** Order 6 on the flat punch table. *)
Lemma garcia_order_beyond_table_witness :
  bec_garcia_garcia (numpy := numpy_series) 2 [PyFloat 0.1; PyNone]
                    "flat_punch" 5 6
  = Ok (repeat 1 2).
Proof.
  exact (garcia_order_beyond_table (numpy := numpy_series) 2
           [PyFloat 0.1; PyNone] "flat_punch" 5 6 eq_refl eq_refl).
Defined.

(** C5. Identity at [h <= 0]: for every provider except
    [sphere_approx_kontomaris], every geometry tag that passes the gate,
    every indentation sequence, tip parameter and order, a sample height
    [h <= 0] makes every coefficient of the result exactly 1.0. *)
Theorem identity_without_height {numpy : NumPy} (p : provider) (h : float)
        (indentation : list object) (ind_shape : string) (tip : float)
        (order : Z) :
  p <> Kontomaris ->
  supports p ind_shape = true ->
  (h <=? 0) = true ->
  call p h indentation ind_shape tip order
  = Ok (repeat 1 (List.length indentation)).
Proof.
  intros Hp Hs Hh. rewrite (call_supported _ _ _ _ _ _ Hs). f_equal.
  apply sample_loop_const. intros d.
  rewrite try_body_no_height; auto using leb_0_not_ltb.
Qed.

(** A negative height, with a malformed sample in the sequence. *)
Lemma identity_without_height_witness :
  call (numpy := numpy_series) Managuli_cone (-3)
       [PyFloat 0.1; PyNone; PyFloat 7] "cone" 0.5 4
  = Ok (repeat 1 3).
Proof.
  refine (identity_without_height (numpy := numpy_series) Managuli_cone (-3)
            [PyFloat 0.1; PyNone; PyFloat 7] "cone" 0.5 4 _ eq_refl eq_refl).
  discriminate.
Defined.

(** C6, as the code has it.  At indentation 0 and [h > 0] the coefficient
    is [nan] when the tip radius is infinite ([0 * inf]) and, for Managuli,
    when [h ** 2] underflows to 0 ([0 / 0]). *)
Lemma zero_indentation_nan :
  (0 <? infinity) = true
  /\ bec_dimitriadis_paraboloid_bonded 1 [PyFloat 0] "paraboloid" infinity
     = Ok [nan]
  /\ (0 <? 1e-200) = true
  /\ bec_managuli_cone (numpy := numpy_series) 1e-200 [PyFloat 0] "cone" 0.5
     = Ok [nan]
  /\ (nan =? 1) = false.
Proof. repeat split; vm_compute; reflexivity. Qed.

(** C6, amended.  Zero-indentation neutrality: for the Dimitriadis, Gavara
    and Managuli providers, a sample of indentation 0 with [h > 0] gets the
    coefficient exactly 1.0, provided the factors of the series are finite
    (a finite tip radius; no overflow in the factors made from
    [tan(half_opening_angle)]) and, for Managuli, [h ** 2] is not 0. *)
Theorem zero_indentation_neutral {numpy : NumPy} (p : provider) (h : float)
        (indentation : list object) (ind_shape : string) (tip : float)
        (order : Z) (i : nat) (d : float) :
  p <> Garcia_garcia -> p <> Kontomaris ->
  supports p ind_shape = true ->
  (0 <? h) = true ->
  series_regular p h tip = true ->
  nth_error indentation i = Some (PyFloat d) ->
  (d =? 0) = true ->
  exists coefficients_out,
    call p h indentation ind_shape tip order = Ok coefficients_out
    /\ nth_error coefficients_out i = Some 1.
Proof.
  intros Hg Hk Hs Hh Hreg Hi Hd.
  rewrite (call_supported _ _ _ _ _ _ Hs).
  eexists. split; [reflexivity|].
  rewrite (sample_loop_nth _ _ _ _ Hi).
  rewrite try_body_zero; auto using eqb_zero.
Qed.

(** The second sample is [-0.0]. *)
Lemma zero_indentation_neutral_witness :
  exists coefficients_out,
    call (numpy := numpy_series) Managuli_cone 2
         [PyFloat 0.3; PyFloat (-0)] "cone" 0.5 4
    = Ok coefficients_out
    /\ nth_error coefficients_out 1 = Some 1.
Proof.
  refine (zero_indentation_neutral (numpy := numpy_series) Managuli_cone 2
            [PyFloat 0.3; PyFloat (-0)] "cone" 0.5 4 1 (-0)
            _ _ eq_refl eq_refl eq_refl eq_refl eq_refl);
    discriminate.
Defined.

(** C7, as the code has it.  The scenario's coefficient is above 3.1, more
    than 0.4 away from 2.699. *)
Lemma dimitriadis_scenario_not_2_699 :
  bec_dimitriadis_paraboloid_bonded 2.0 [PyFloat 0.5] "paraboloid" 5.0
  = Ok [3.1156435098473003]
  /\ (2.699 + 0.4 <? 3.1156435098473003) = true.
Proof. split; vm_compute; reflexivity. Qed.

(** C7, amended.  [bec_dimitriadis_paraboloid_bonded(h=2.0,
    indentation=[0.5], ind_shape="paraboloid", R=5.0)] returns the single
    coefficient [1 + 1.133*X + 1.283*X^2 + 0.769*X^3 + 0.0975*X^4] with
    [X = sqrt(0.5*5)/2], which is 0.7906 to four places; the coefficient
    is 3.1156 to four places. *)
Theorem dimitriadis_scenario :
  let X := sqrt (0.5 * 5.0) / 2.0 in
  let coeff :=
    1 + (1.133 * X + 1.283 * X ** 2) + (0.769 * X ** 3 + 0.0975 * X ** 4) in
  bec_dimitriadis_paraboloid_bonded 2.0 [PyFloat 0.5] "paraboloid" 5.0
  = Ok [coeff]
  /\ (0.79055 <? X) = true /\ (X <? 0.79065) = true
  /\ (3.11555 <? coeff) = true /\ (coeff <? 3.11565) = true.
Proof. cbv zeta. repeat split; vm_compute; reflexivity. Qed.

(** C8. [sphere_approx_kontomaris] at indentation 0, geometry
    "paraboloid", [R = 5.0] and the default order 6 returns the single
    coefficient 1.01, whatever its first argument: the first term gives
    [(3/2)*sqrt(5) * (2/3)*1.01/sqrt(5)], which is 1.01, and each of the
    five terms that depend on the indentation is a zero. *)
Theorem kontomaris_scenario (first : object) :
  sphere_approx_kontomaris first [PyFloat 0.0] "paraboloid" 5.0
                           kontomaris_default_order
  = Ok [1.01]
  /\ 3 / 2 * sqrt 5.0 * (2 / 3 * 1.0100000 / sqrt 5.0) = 1.01
  /\ map (fun O : kontomaris_term => O (PyFloat 0.0) 5.0)
         kontomaris_model_factors
     = [Ok (2 / 3 * 1.0100000 / sqrt 5.0); Ok (-0); Ok (-0); Ok 0; Ok (-0); Ok 0].
Proof. repeat split; vm_compute; reflexivity. Qed.

(** C9. The result of [sphere_approx_kontomaris] does not depend on its
    first argument. *)
Theorem kontomaris_ignores_height (first first' : object)
        (indentation : list object) (ind_shape : string) (R : float)
        (order : Z) :
  sphere_approx_kontomaris first indentation ind_shape R order
  = sphere_approx_kontomaris first' indentation ind_shape R order.
Proof. reflexivity. Qed.

(** C10. With [order = 0], [sphere_approx_kontomaris] on "paraboloid"
    returns exactly 0.0 for every sample (the accumulator starts at 0.0
    and no term is added), while [bec_garcia_garcia] on a supported
    geometry returns exactly 1.0 for every sample. *)
Theorem order_0 {numpy : NumPy} (first : object) (h : float)
        (indentation : list object) (ind_shape : string) (tip : float) :
  supports Garcia_garcia ind_shape = true ->
  sphere_approx_kontomaris first indentation "paraboloid" tip 0
  = Ok (repeat 0 (List.length indentation))
  /\ bec_garcia_garcia h indentation ind_shape tip 0
     = Ok (repeat 1 (List.length indentation))
  /\ (0 =? 1) = false.
Proof.
  intros Hs. split; [|split; [|reflexivity]].
  - change (call Kontomaris h indentation "paraboloid" tip 0
            = Ok (repeat 0 (List.length indentation))).
    rewrite call_supported by reflexivity. f_equal.
    now apply sample_loop_const.
  - change (call Garcia_garcia h indentation ind_shape tip 0
            = Ok (repeat 1 (List.length indentation))).
    rewrite (call_supported _ _ _ _ _ _ Hs). f_equal.
    apply sample_loop_const. intros d. cbn [try_body].
    destruct (garcia_table_supported _ Hs) as (t & -> & _).
    now rewrite garcia_coeff_order_0.
Qed.

(** Two samples, paraboloid geometry. *)
Lemma order_0_witness :
  sphere_approx_kontomaris PyNone [PyFloat 0.1; PyFloat 0.2] "paraboloid" 5 0
  = Ok (repeat 0 2)
  /\ bec_garcia_garcia (numpy := numpy_series) 1 [PyFloat 0.1; PyFloat 0.2]
                       "paraboloid" 5 0
     = Ok (repeat 1 2)
  /\ (0 =? 1) = false.
Proof.
  exact (order_0 (numpy := numpy_series) PyNone 1 [PyFloat 0.1; PyFloat 0.2]
           "paraboloid" 5 eq_refl).
Defined.

(** * Further properties of the providers *)

(** ** More on the inner loop and on [range] *)

Lemma for_range_ext {A : Type} js (step step' : A -> nat -> result A) acc :
  (forall a j, step a j = step' a j) ->
  for_range js step acc = for_range js step' acc.
Proof.
  intros H. revert acc.
  induction js as [|j rest IH]; intros acc; cbn [for_range]; [reflexivity|].
  rewrite H. destruct (step' acc j); cbn [bind]; auto.
Qed.

Lemma for_range_snoc {A : Type} js j (step : A -> nat -> result A) acc :
  for_range (js ++ [j]) step acc
  = bind (for_range js step acc) (fun a => step a j).
Proof.
  revert acc.
  induction js as [|k rest IH]; intros acc; cbn [for_range app].
  - cbn [bind]. destruct (step acc j); reflexivity.
  - destruct (step acc k); cbn [bind]; auto.
Qed.


Lemma range_succ order :
  (0 <= order)%Z -> range (order + 1) = (range order ++ [Z.to_nat order])%list.
Proof.
  intros H. unfold range.
  replace (Z.to_nat (order + 1)) with (S (Z.to_nat order)) by lia.
  now rewrite seq_S.
Qed.

Lemma range_nonpositive order : (order <= 0)%Z -> range order = [].
Proof.
  intros H. unfold range.
  now replace (Z.to_nat order) with 0%nat by lia.
Qed.



(** ** [nan] in binary64 *)

Lemma sqrt_negative x : (x <? 0) = true -> sqrt x = nan.
Proof.
  rewrite FloatAxioms.ltb_spec. change (Prim2SF 0) with (S754_zero false).
  intros H. apply Prim2SF_inj. rewrite sqrt_spec.
  destruct (Prim2SF x) as [s| s| |s m e]; try discriminate;
    destruct s; try discriminate; reflexivity.
Qed.

Lemma nan_div y : nan / y = nan.
Proof.
  apply Prim2SF_inj. rewrite div_spec.
  change (Prim2SF nan) with S754_nan.
  destruct (Prim2SF y); reflexivity.
Qed.

(** ** What the providers do beyond the claims *)

(** X1. Every provider works sample by sample: on a supported geometry
    the result for a concatenation of two indentation sequences is the
    concatenation of the results for each, and the empty sequence gives
    the empty result. *)
Theorem call_concatenation {numpy : NumPy} (p : provider) (h : float)
        (ind_shape : string) (tip : float) (order : Z)
        (first_part second_part : list object) :
  supports p ind_shape = true ->
  exists out_first out_second,
    call p h first_part ind_shape tip order = Ok out_first
    /\ call p h second_part ind_shape tip order = Ok out_second
    /\ call p h (first_part ++ second_part) ind_shape tip order
       = Ok (out_first ++ out_second)%list
    /\ call p h [] ind_shape tip order = Ok [].
Proof.
  intros Hs. rewrite !(call_supported _ _ _ _ _ _ Hs).
  do 2 eexists. repeat split.
  now rewrite !sample_loop_map, map_app.
Qed.

(** Kontomaris on two samples and then one. *)
Lemma call_concatenation_witness :
  exists out_first out_second,
    call (numpy := numpy_series) Kontomaris 1 [PyFloat 0.1; PyFloat 0.2]
         "paraboloid" 5 6
    = Ok out_first
    /\ call (numpy := numpy_series) Kontomaris 1 [PyFloat 0.3] "paraboloid" 5 6
       = Ok out_second
    /\ call (numpy := numpy_series) Kontomaris 1
            ([PyFloat 0.1; PyFloat 0.2] ++ [PyFloat 0.3]) "paraboloid" 5 6
       = Ok (out_first ++ out_second)%list
    /\ call (numpy := numpy_series) Kontomaris 1 [] "paraboloid" 5 6 = Ok [].
Proof.
  exact (call_concatenation (numpy := numpy_series) Kontomaris 1 "paraboloid"
           5 6 [PyFloat 0.1; PyFloat 0.2] [PyFloat 0.3] eq_refl).
Defined.

(** X2. A sample height that is [nan] fails the test [h > 0]: the five
    providers that read the height return 1.0 for every sample, as they
    do for [h <= 0]. *)
Theorem nan_height_identity {numpy : NumPy} (p : provider)
        (indentation : list object) (ind_shape : string) (tip : float)
        (order : Z) :
  p <> Kontomaris ->
  supports p ind_shape = true ->
  call p nan indentation ind_shape tip order
  = Ok (repeat 1 (List.length indentation)).
Proof.
  intros Hp Hs. rewrite (call_supported _ _ _ _ _ _ Hs). f_equal.
  apply sample_loop_const. intros d.
  now rewrite try_body_no_height.
Qed.

(** The Gavara provider at a [nan] height. *)
Lemma nan_height_identity_witness :
  call (numpy := numpy_series) Gavara_cone nan [PyFloat 0.1; PyFloat 0.2]
       "cone" 0.5 4
  = Ok (repeat 1 2).
Proof.
  refine (nan_height_identity (numpy := numpy_series) Gavara_cone
            [PyFloat 0.1; PyFloat 0.2] "cone" 0.5 4 _ eq_refl).
  discriminate.
Defined.

(** X3. [sphere_approx_kontomaris] with an order greater than 6, the
    length of its term table: the [IndexError] of [model_factors[j]] is
    caught in every sample's [try] block and every coefficient is 1.0. *)
Theorem kontomaris_order_beyond_table (first : object)
        (indentation : list object) (R : float) (order : Z) :
  (6 < order)%Z ->
  sphere_approx_kontomaris first indentation "paraboloid" R order
  = Ok (repeat 1 (List.length indentation)).
Proof.
  intros Ho.
  change (call (numpy := numpy_series) Kontomaris 0 indentation "paraboloid"
               R order
          = Ok (repeat 1 (List.length indentation))).
  rewrite call_supported by reflexivity. f_equal.
  apply sample_loop_const. intros d. cbn [try_body]. unfold kontomaris_coeff.
  destruct (for_range_raises (range order)
              (fun coeff j =>
                 O <- getitem kontomaris_model_factors j ;;
                 term <- O d R ;; Ok (coeff + 3 / 2 * sqrt R * term))
              0 6%nat) as [e ->].
  - now apply range_beyond.
  - intros a. now exists IndexError.
  - reflexivity.
Qed.

(** Order 7. *)
Lemma kontomaris_order_beyond_table_witness :
  sphere_approx_kontomaris PyNone [PyFloat 0.1; PyFloat 0.2] "paraboloid" 5 7
  = Ok (repeat 1 2).
Proof.
  exact (kontomaris_order_beyond_table PyNone [PyFloat 0.1; PyFloat 0.2] 5 7
           eq_refl).
Defined.

(** X4. A negative order is taken as no term at all: [range(order)] is
    empty for every [order <= 0], so [sphere_approx_kontomaris] returns
    0.0 and [bec_garcia_garcia] 1.0 for every sample, and nothing
    raises. *)
Theorem nonpositive_order {numpy : NumPy} (first : object) (h : float)
        (indentation : list object) (ind_shape : string) (tip : float)
        (order : Z) :
  (order <= 0)%Z ->
  supports Garcia_garcia ind_shape = true ->
  sphere_approx_kontomaris first indentation "paraboloid" tip order
  = Ok (repeat 0 (List.length indentation))
  /\ bec_garcia_garcia h indentation ind_shape tip order
     = Ok (repeat 1 (List.length indentation)).
Proof.
  intros Ho Hs. split.
  - change (call Kontomaris h indentation "paraboloid" tip order
            = Ok (repeat 0 (List.length indentation))).
    rewrite call_supported by reflexivity. f_equal.
    apply sample_loop_const. intros d. cbn [try_body].
    unfold kontomaris_coeff. now rewrite range_nonpositive.
  - change (call Garcia_garcia h indentation ind_shape tip order
            = Ok (repeat 1 (List.length indentation))).
    rewrite (call_supported _ _ _ _ _ _ Hs). f_equal.
    apply sample_loop_const. intros d. cbn [try_body].
    destruct (garcia_table_supported _ Hs) as (t & -> & _).
    unfold garcia_coeff. rewrite range_nonpositive by assumption.
    now destruct (0 <? h).
Qed.

(** Order -3. *)
Lemma nonpositive_order_witness :
  sphere_approx_kontomaris PyNone [PyFloat 0.1; PyNone] "paraboloid" 5 (-3)
  = Ok (repeat 0 2)
  /\ bec_garcia_garcia (numpy := numpy_series) 1 [PyFloat 0.1; PyNone]
                       "conical" 5 (-3)
     = Ok (repeat 1 2).
Proof.
  refine (nonpositive_order (numpy := numpy_series) PyNone 1
            [PyFloat 0.1; PyNone] "conical" 5 (-3) _ eq_refl).
  lia.
Defined.

(** X5. On the flat punch geometry [bec_garcia_garcia] never reads the
    samples: for a given height, radius and order every sample gets the
    same coefficient, a sample that is not a number included. *)
Theorem flat_punch_ignores_indentation {numpy : NumPy} (h R : float)
        (order : Z) :
  exists coeff,
    forall indentation,
      bec_garcia_garcia h indentation "flat_punch" R order
      = Ok (repeat coeff (List.length indentation)).
Proof.
  exists (try_except (garcia_coeff flat_punch_model_factors h R order PyNone)).
  intros indentation.
  change (call Garcia_garcia h indentation "flat_punch" R order
          = Ok (repeat
                  (try_except
                     (garcia_coeff flat_punch_model_factors h R order PyNone))
                  (List.length indentation))).
  rewrite call_supported by reflexivity. f_equal.
  apply sample_loop_const. intros d. cbn [try_body].
  change (dict_get garcia_garcia_factors "flat_punch")
    with (Some flat_punch_model_factors).
  f_equal. unfold garcia_coeff.
  destruct (0 <? h); [|reflexivity].
  apply for_range_ext. intros a j.
  destruct j as [|[|[|[|j]]]]; try reflexivity.
  now rewrite !getitem_beyond by (cbn; lia).
Qed.

(** X6. In the Dimitriadis, Gavara and Managuli providers a sample that
    is not a number gets the coefficient 1.0, whatever the height: the
    [TypeError] is caught when [h > 0], and the sample is not read
    otherwise. *)
Theorem malformed_sample_neutral {numpy : NumPy} (p : provider) (h : float)
        (indentation : list object) (ind_shape : string) (tip : float)
        (order : Z) (i : nat) :
  p <> Garcia_garcia -> p <> Kontomaris ->
  supports p ind_shape = true ->
  nth_error indentation i = Some PyNone ->
  exists coefficients_out,
    call p h indentation ind_shape tip order = Ok coefficients_out
    /\ nth_error coefficients_out i = Some 1.
Proof.
  intros Hg Hk Hs Hi. rewrite (call_supported _ _ _ _ _ _ Hs).
  eexists. split; [reflexivity|].
  rewrite (sample_loop_nth _ _ _ _ Hi). f_equal.
  destruct p; try congruence; cbn [try_body];
    unfold dimitriadis_bonded_coeff, dimitriadis_not_bonded_coeff,
      gavara_coeff, managuli_coeff;
    destruct (0 <? h); reflexivity.
Qed.

(** The second sample is [None]. *)
Lemma malformed_sample_neutral_witness :
  exists coefficients_out,
    call (numpy := numpy_series) Dimitriadis_not_bonded 2
         [PyFloat 0.5; PyNone] "paraboloid" 5 4
    = Ok coefficients_out
    /\ nth_error coefficients_out 1 = Some 1.
Proof.
  refine (malformed_sample_neutral (numpy := numpy_series)
            Dimitriadis_not_bonded 2 [PyFloat 0.5; PyNone] "paraboloid" 5 4 1
            _ _ eq_refl eq_refl);
    discriminate.
Defined.

(** X7. In [bec_garcia_garcia] on the paraboloid or the conical geometry
    with an order of at least 1, and in [sphere_approx_kontomaris] with
    an order of at least 2, a sample that is not a number gets the
    coefficient 1.0: the first term that reads the sample raises and the
    [except] branch appends 1.0. *)
Theorem malformed_sample_series {numpy : NumPy} (first : object) (h : float)
        (indentation : list object) (ind_shape : string) (tip : float)
        (garcia_order kontomaris_order : Z) (i : nat) :
  ind_shape = "paraboloid"%string \/ ind_shape = "conical"%string ->
  (1 <= garcia_order)%Z ->
  (2 <= kontomaris_order)%Z ->
  nth_error indentation i = Some PyNone ->
  (exists coefficients_out,
      bec_garcia_garcia h indentation ind_shape tip garcia_order
      = Ok coefficients_out
      /\ nth_error coefficients_out i = Some 1)
  /\ (exists coefficients_out,
         sphere_approx_kontomaris first indentation "paraboloid" tip
                                  kontomaris_order
         = Ok coefficients_out
         /\ nth_error coefficients_out i = Some 1).
Proof.
  intros Hshape Hg Hk Hi. split.
  - assert (Hs : supports Garcia_garcia ind_shape = true)
      by (destruct Hshape; subst; reflexivity).
    change (bec_garcia_garcia h indentation ind_shape tip garcia_order)
      with (call Garcia_garcia h indentation ind_shape tip garcia_order).
    rewrite (call_supported _ _ _ _ _ _ Hs).
    eexists. split; [reflexivity|].
    rewrite (sample_loop_nth _ _ _ _ Hi). f_equal. cbn [try_body].
    assert (Hraise : forall t : list garcia_term,
               (forall a, exists e,
                     (O <- getitem t 0 ;; term <- O h PyNone tip ;;
                      Ok (a + term)) = Raise e) ->
               try_except (garcia_coeff t h tip garcia_order PyNone) = 1).
    { intros t Ht. unfold garcia_coeff.
      destruct (0 <? h); [|reflexivity].
      destruct (for_range_raises (range garcia_order)
                  (fun coeff j =>
                     O <- getitem t j ;; term <- O h PyNone tip ;;
                     Ok (coeff + term))
                  1 0%nat) as [e ->];
        [apply range_beyond; cbn; lia | exact Ht | reflexivity]. }
    destruct Hshape; subst.
    + change (dict_get garcia_garcia_factors "paraboloid")
        with (Some paraboloid_model_factors).
      apply Hraise. intros a. now exists TypeError.
    + change (dict_get garcia_garcia_factors "conical")
        with (Some conical_model_factors).
      apply Hraise. intros a. now exists TypeError.
  - change (sphere_approx_kontomaris first indentation "paraboloid" tip
                                     kontomaris_order)
      with (call Kontomaris h indentation "paraboloid" tip kontomaris_order).
    rewrite call_supported by reflexivity.
    eexists. split; [reflexivity|].
    rewrite (sample_loop_nth _ _ _ _ Hi). f_equal. cbn [try_body].
    unfold kontomaris_coeff.
    destruct (for_range_raises (range kontomaris_order)
                (fun coeff j =>
                   O <- getitem kontomaris_model_factors j ;;
                   term <- O PyNone tip ;;
                   Ok (coeff + 3 / 2 * sqrt tip * term))
                0 1%nat) as [e ->];
      [apply range_beyond; cbn; lia | intros a; now exists TypeError
      | reflexivity].
Qed.

(** The first sample is [None]; orders 4 and 6, the defaults. *)
Lemma malformed_sample_series_witness :
  (exists coefficients_out,
      bec_garcia_garcia (numpy := numpy_series) 1 [PyNone; PyFloat 0.1]
                        "conical" 0.5 4
      = Ok coefficients_out
      /\ nth_error coefficients_out 0 = Some 1)
  /\ (exists coefficients_out,
         sphere_approx_kontomaris PyNone [PyNone; PyFloat 0.1] "paraboloid"
                                  0.5 6
         = Ok coefficients_out
         /\ nth_error coefficients_out 0 = Some 1).
Proof.
  refine (malformed_sample_series (numpy := numpy_series) PyNone 1
            [PyNone; PyFloat 0.1] "conical" 0.5 4 6 0
            (or_intror eq_refl) _ _ eq_refl);
    lia.
Defined.

(** X8. The Garcia series is summed term by term: with [h > 0], when the
    [try] block of a sample ends with [coeff] at some order [order >= 0]
    and the next term of the table evaluates to [term] on that sample,
    the block ends with [coeff + term] at [order + 1]. *)
Theorem garcia_next_order (model_factors : list garcia_term)
        (h tip : float) (order : Z) (d : object) (O : garcia_term)
        (coeff term : float) :
  (0 <= order)%Z ->
  (0 <? h) = true ->
  garcia_coeff model_factors h tip order d = Ok coeff ->
  getitem model_factors (Z.to_nat order) = Ok O ->
  O h d tip = Ok term ->
  garcia_coeff model_factors h tip (order + 1) d = Ok (coeff + term).
Proof.
  unfold garcia_coeff. intros Ho Hh Hc HO Ht. rewrite Hh in *.
  rewrite range_succ, for_range_snoc by assumption.
  rewrite Hc. cbn [bind]. rewrite HO. cbn [bind]. now rewrite Ht.
Qed.

(** From the first to the second order of the paraboloid series. *)
Lemma garcia_next_order_witness :
  garcia_coeff paraboloid_model_factors 2 5 (1 + 1) (PyFloat 0.5)
  = Ok (1 + 1.133 * sqrt (0.5 * 5) / 2 + 1.497 * 0.5 * 5 / 2 ** 2).
Proof.
  exact (garcia_next_order paraboloid_model_factors 2 5 1 (PyFloat 0.5)
           (fun h indentation R =>
              d <- as_float indentation ;; Ok ((1.497 * d * R) / h ** 2))
           (1 + 1.133 * sqrt (0.5 * 5) / 2) (1.497 * 0.5 * 5 / 2 ** 2)
           Z.le_0_1 eq_refl eq_refl eq_refl eq_refl).
Defined.

(** X9. In both Dimitriadis providers, with [h > 0], a sample whose
    product [indentation[i] * R] is negative gets the coefficient [nan]:
    [np.sqrt] returns [nan] and the series carries it to the result. *)
Theorem dimitriadis_negative_product (h R : float)
        (indentation : list object) (i : nat) (d : float) :
  (0 <? h) = true ->
  nth_error indentation i = Some (PyFloat d) ->
  (d * R <? 0) = true ->
  (exists coefficients_out,
      bec_dimitriadis_paraboloid_bonded h indentation "paraboloid" R
      = Ok coefficients_out
      /\ nth_error coefficients_out i = Some nan)
  /\ (exists coefficients_out,
         bec_dimitriadis_paraboloid_not_bonded h indentation "paraboloid" R
         = Ok coefficients_out
         /\ nth_error coefficients_out i = Some nan).
Proof.
  intros Hh Hi Hneg.
  split; eexists; (split; [reflexivity|]);
    rewrite (sample_loop_nth _ _ _ _ Hi); f_equal;
    unfold dimitriadis_bonded_coeff, dimitriadis_not_bonded_coeff;
    rewrite Hh; cbn [as_float bind]; cbv zeta;
    rewrite (sqrt_negative _ Hneg), nan_div; reflexivity.
Qed.

(** A negative indentation on a positive radius. *)
Lemma dimitriadis_negative_product_witness :
  (exists coefficients_out,
      bec_dimitriadis_paraboloid_bonded 2 [PyFloat 0.5; PyFloat (-0.5)]
                                        "paraboloid" 5
      = Ok coefficients_out
      /\ nth_error coefficients_out 1 = Some nan)
  /\ (exists coefficients_out,
         bec_dimitriadis_paraboloid_not_bonded 2 [PyFloat 0.5; PyFloat (-0.5)]
                                               "paraboloid" 5
         = Ok coefficients_out
         /\ nth_error coefficients_out 1 = Some nan).
Proof.
  exact (dimitriadis_negative_product 2 5 [PyFloat 0.5; PyFloat (-0.5)] 1
           (-0.5) eq_refl eq_refl eq_refl).
Defined.



(** X11. The cone providers and [bec_garcia_garcia] share no geometry
    tag: the former take "cone" only, the latter names the same geometry
    "conical", so for every tag one of the two calls raises at its
    gate. *)
Theorem cone_tags_disjoint {numpy : NumPy} (ind_shape : string)
        (h h' : float) (indentation indentation' : list object)
        (half_opening_angle tip : float) (order : Z) :
  (exists msg msg',
      bec_gavara_cone h indentation ind_shape half_opening_angle
      = Raise (Exception msg)
      /\ bec_managuli_cone h indentation ind_shape half_opening_angle
         = Raise (Exception msg'))
  \/ (exists msg,
         bec_garcia_garcia h' indentation' ind_shape tip order
         = Raise (Exception msg)).
Proof.
  destruct (String.eqb ind_shape "cone") eqn:E.
  - right. apply String.eqb_eq in E. subst. eexists. reflexivity.
  - left. unfold bec_gavara_cone, bec_managuli_cone. rewrite E.
    do 2 eexists. split; reflexivity.
Qed.
